(** * The S3 storage adapter of CollectionFS ([s3.server.js])

    A shallow embedding of [FS.Store.S3]: the constructor with its folder
    normalisation, and the five functions it hands to [FS.StorageAdapter]
    ([fileKey], [createReadStream], [createWriteStream], [remove], [watch]).

    JavaScript values are a small inductive type with the language's
    truthiness and string coercion; option bags are finite maps from
    property names to values; the calls made on the AWS client, the timers,
    the console and the events seen by the consumer of the returned stream
    are recorded in explicit logs. *)

From Stdlib Require Import ZArith Ascii String List Strings.Byte.
From stdpp Require Import base option list gmap strings pretty.

Set Warnings "-register-all".
Local Open Scope string_scope.
Local Open Scope Z_scope.
Local Open Scope list_scope.

(** ** JavaScript values *)

Module JS.

(** Primitives, arrays and plain objects. Numbers are the integer-valued
    ones, which is all the adapter ever computes with. *)
Inductive value : Type :=
| VUndefined
| VNull
| VBool (b : bool)
| VNum (n : Z)
| VStr (s : string)
| VArr (items : list value)
| VObj (fields : list (string * value)).

(** ToBoolean: what [if (v)], [!v], [a || b] and [a && b] test. *)
Definition truthy (v : value) : bool :=
  match v with
  | VUndefined | VNull => false
  | VBool b => b
  | VNum n => negb (n =? 0)
  | VStr s => negb (String.eqb s "")
  | VArr _ | VObj _ => true
  end.

(** [a || b] *)
Definition or (a b : value) : value := if truthy a then a else b.

(** ToString, as applied by [+] when the other operand is a string. *)
Fixpoint to_string (v : value) : string :=
  match v with
  | VUndefined => "undefined"
  | VNull => "null"
  | VBool true => "true"
  | VBool false => "false"
  | VNum n => pretty n
  | VStr s => s
  | VArr items =>
      String.concat ","
        (List.map (fun x => match x with
                            | VUndefined | VNull => ""
                            | _ => to_string x
                            end) items)
  | VObj _ => "[object Object]"
  end.

(** [typeof v === "string"] *)
Definition is_string (v : value) : bool :=
  match v with VStr _ => true | _ => false end.

(** [String.prototype.slice(start, stop)]: negative indices count from the
    end, everything is clamped to the string. [stop = None] is the
    one-argument call. *)
Definition clamp (len i : Z) : Z :=
  if i <? 0 then Z.max (len + i) 0 else Z.min i len.

Definition slice (s : string) (start : Z) (stop : option Z) : string :=
  let len := Z.of_nat (String.length s) in
  let from := clamp len start in
  let to := match stop with None => len | Some e => clamp len e end in
  substring (Z.to_nat from) (Z.to_nat (Z.max (to - from) 0)) s.

(** What a function call produces: a value, or a thrown exception. *)
Inductive exn : Type :=
| Error (message : string)
| TypeError.

Inductive completion (A : Type) : Type :=
| Normal (a : A)
| Throw (e : exn).
Arguments Normal {A} a.
Arguments Throw {A} e.

(** The double-quote character, for messages that contain it. *)
Definition dquote : string := String (ascii_of_nat 34) EmptyString.

End JS.
Import JS.

(** ** The file record (an [FS.File], owned by the framework)

    The adapter reads [_id], [collectionName], the per-store info object
    [_getInfo(storeName)] (a falsy result is [None]) and the name getter
    [name(options)], whose argument is the store asked for, if any. *)

Record FSFile : Type := {
  _id : value;
  collectionName : value;
  _getInfo : string -> option (gmap string value);
  name : option string -> value
}.

(** Reading a property of an object: a missing property is [undefined]. *)
Definition prop (o : gmap string value) (p : string) : value :=
  default VUndefined (o !! p).

(** The second argument of a caller-supplied key function:
    [{name: name, info: info}]. *)
Record KeyContext : Type := {
  ctx_name : string;
  ctx_info : option (gmap string value)
}.

(** ** The constructor [FS.Store.S3(name, options)] *)

Module Options.
(** The properties of [options] that the adapter itself reads; an absent
    property is [VUndefined], an absent key function is [None]. *)
Record t : Type := {
  folder : value;
  bucket : value;
  ACL : value;
  fileKey : option (FSFile -> KeyContext -> value)
}.

(** [options || {}] *)
Definition empty : t :=
  {| folder := VUndefined; bucket := VUndefined; ACL := VUndefined;
     fileKey := None |}.
End Options.

(** The variables the adapter functions close over. *)
Record Store : Type := {
  st_name : string;
  st_options : Options.t;
  st_folder : string;
  st_bucket : value;
  st_defaultAcl : value
}.

(** Lines 73-84: which key prefix to use. *)
Definition normalize_folder (folder : value) : string :=
  match folder with
  | VStr s =>
      if negb (String.length s =? 0)%nat then
        let s1 := if String.eqb (slice s 0 (Some 1)) "/" then slice s 1 None else s in
        if negb (String.eqb (slice s1 (-1) None) "/") then s1 +:+ "/" else s1
      else ""
  | _ => ""
  end.

(** The constructor. [with_new] tells whether it was called with [new].
    The service parameters it assembles are handed to [AWS.S3] as they are
    and play no part in what follows. *)
Definition FS_Store_S3 (with_new : bool) (name : string)
    (options : option Options.t) : completion Store :=
  if negb with_new then
    Throw (Error ("FS.Store.S3 missing keyword " +:+ dquote +:+ "new" +:+ dquote))
  else
    let options := default Options.empty options in
    let folder := normalize_folder (Options.folder options) in
    let bucket := Options.bucket options in
    if negb (truthy bucket) then
      Throw (Error ("FS.Store.S3 you must specify the " +:+ dquote +:+ "bucket"
                    +:+ dquote +:+ " option"))
    else
      let defaultAcl := JS.or (Options.ACL options) (VStr "private") in
      Normal {| st_name := name; st_options := options; st_folder := folder;
                st_bucket := bucket; st_defaultAcl := defaultAcl |}.

(** ** The AWS client

    [AWS.S3] is an external collaborator. What the adapter asks of it is
    logged; what it answers is a parameter of the model. *)

Inductive S3Call : Type :=
| CreateReadStream (Bucket : value) (Key : string)
| CreateWriteStream (params : gmap string value)
| DeleteObject (Bucket : value) (Key : string).

(** The error object the client reports. *)
Record AWSError : Type := { code : string; message : string }.

Definition Buffer : Type := list byte.

(** One stream returned by [S3.createReadStream]: some ['data'] events, then
    either ['end'] or ['error']. *)
Inductive outcome : Type :=
| Finish
| Fail (err : AWSError).

Record attempt : Type := { chunks : list Buffer; result : outcome }.

Record S3Client : Type := {
  (** the behaviour of the n-th read stream opened (counting from 0) *)
  read_stream : nat -> attempt;
  (** the error, if any, handed to the callback of [deleteObject] *)
  delete_object : value -> string -> option AWSError
}.

(** ** [fileKey] (lines 113-130) *)

Definition fileKey (st : Store) (fileObj : option FSFile) : completion value :=
  let name_ := st_name st in
  (* var info = fileObj && fileObj._getInfo(name); *)
  let info := match fileObj with
              | Some f => _getInfo f name_
              | None => None
              end in
  (* if (info && info.key) return info.key; *)
  let found := match info with
               | Some i => truthy (prop i "key")
               | None => false
               end in
  match info, found with
  | Some i, true => Normal (prop i "key")
  | _, _ =>
      match fileObj with
      | None => Throw TypeError
      | Some f =>
          let filename := name f None in
          let filenameInStore := name f (Some name_) in
          match Options.fileKey (st_options st) with
          | Some g => Normal (g f {| ctx_name := name_; ctx_info := info |})
          | None =>
              Normal (VStr (to_string (collectionName f) +:+ "/"
                            +:+ to_string (_id f) +:+ "-"
                            +:+ to_string (JS.or filenameInStore filename)))
          end
      end
  end.

(** ** [createReadStream] (lines 131-170) *)

(** The [options] argument; [None] is an absent property. *)
Record ReadOptions : Type := { tries : option Z; tryFreq : option Z }.

(** [_.extend({tries: 3, tryFreq: 1000}, options)] *)
Definition read_defaults (options : option ReadOptions) : Z * Z :=
  match options with
  | None => (3, 1000)
  | Some o => (default 3 (tries o), default 1000 (tryFreq o))
  end.

(** What the consumer of [out] observes, in order. *)
Inductive OutEvent : Type :=
| Push (data : Buffer)
| EmitError (e : exn)
| PushNull.

(** The mutable state of one call: the counter, and the logs of what was
    pushed to [out], asked of S3, scheduled with [setTimeout] and written
    to the console. *)
Record ReadState : Type := {
  triesLeft : Z;
  out : list OutEvent;
  s3_calls : list S3Call;
  timers : list Z;
  console : list string
}.

Definition on_data (s : ReadState) (data : Buffer) : ReadState :=
  {| triesLeft := triesLeft s; out := out s ++ [Push data];
     s3_calls := s3_calls s; timers := timers s; console := console s |}.

Definition on_end (s : ReadState) : ReadState :=
  {| triesLeft := triesLeft s; out := out s ++ [PushNull];
     s3_calls := s3_calls s; timers := timers s; console := console s |}.

Definition download_message (key : string) (bucket : value) : string :=
  "Failed to download file " +:+ key +:+ " from S3 bucket " +:+ to_string bucket.

(** The ['error'] handler; the boolean tells whether [startStream] was
    scheduled again. *)
Definition on_error (key : string) (bucket : value) (tryFreq : Z)
    (s : ReadState) : ReadState * bool :=
  if triesLeft s <=? 0 then
    let error := Error (download_message key bucket) in
    ({| triesLeft := triesLeft s; out := out s ++ [EmitError error; PushNull];
        s3_calls := s3_calls s; timers := timers s;
        console := console s ++ [download_message key bucket] |}, false)
  else
    ({| triesLeft := triesLeft s - 1; out := out s;
        s3_calls := s3_calls s; timers := timers s ++ [tryFreq];
        console := console s |}, true).

(** [startStream], run together with the events of the stream it opens and
    with the timer it may set. Every run of its body uses one unit of
    [fuel]; [None] means the fuel was too little. *)
Fixpoint startStream (S3 : S3Client) (st : Store) (fileKey : value)
    (tryFreq : Z) (fuel : nat) (s : ReadState) : option ReadState :=
  match fuel with
  | O => None
  | S fuel' =>
      let key := st_folder st +:+ to_string fileKey in
      let stream := read_stream S3 (length (s3_calls s)) in
      let s1 := {| triesLeft := triesLeft s; out := out s;
                   s3_calls := s3_calls s ++ [CreateReadStream (st_bucket st) key];
                   timers := timers s; console := console s |} in
      let s2 := fold_left on_data (chunks stream) s1 in
      match result stream with
      | Finish => Some (on_end s2)
      | Fail _ =>
          let '(s3, again) := on_error key (st_bucket st) tryFreq s2 in
          if again then startStream S3 st fileKey tryFreq fuel' s3 else Some s3
      end
  end.

Definition createReadStream (S3 : S3Client) (st : Store) (fileKey : value)
    (options : option ReadOptions) (fuel : nat) : option ReadState :=
  let '(tries, tryFreq) := read_defaults options in
  startStream S3 st fileKey tryFreq fuel
    {| triesLeft := tries; out := []; s3_calls := []; timers := [];
       console := [] |}.

(** ** [createWriteStream] (lines 175-198) *)

(** [FS.Utility.extend(defaults, options)] is the framework's helper, not
    part of the adapter: the properties of [options] are copied over the
    defaults. *)
Definition extend (defaults options : gmap string value) : gmap string value :=
  options ∪ defaults.

(** The edits made in place on the caller's object (lines 178-187). *)
Definition rename_and_strip (options : gmap string value) : gmap string value :=
  let options :=
    if truthy (prop options "contentType")
    then <["ContentType" := prop options "contentType"]> options
    else options in
  delete "metadata" (delete "contentType" (delete "aliases" options)).

Definition write_params (st : Store) (fileKey : value)
    (options : option (gmap string value)) : gmap string value :=
  let options := default ∅ options in
  let options := rename_and_strip options in
  extend (<["Bucket" := st_bucket st]>
          (<["Key" := VStr (st_folder st +:+ to_string fileKey)]>
          (<["fileKey" := fileKey]>
          (<["ACL" := st_defaultAcl st]> ∅)))) options.

Definition createWriteStream (st : Store) (fileKey : value)
    (options : option (gmap string value)) : list S3Call :=
  [CreateWriteStream (write_params st fileKey options)].

(** ** [remove] (lines 199-207) and [watch] (lines 208-210) *)

(** The effects of [remove]: the calls made on S3 and the invocations
    [callback(error, !error)]. *)
Record RemoveEffects : Type := {
  rm_calls : list S3Call;
  rm_callback : list (option AWSError * bool)
}.

(** [!error], for an [error] that is [null] or an error object *)
Definition not_error (error : option AWSError) : bool :=
  match error with
  | Some _ => false
  | None => true
  end.

Definition remove (S3 : S3Client) (st : Store) (fileKey : value) : RemoveEffects :=
  let Key := st_folder st +:+ to_string fileKey in
  let error := delete_object S3 (st_bucket st) Key in
  {| rm_calls := [DeleteObject (st_bucket st) Key];
     rm_callback := [(error, not_error error)] |}.

Definition watch (st : Store) (args : list value) : list S3Call * completion value :=
  ([], Throw (Error "S3 storage adapter does not support the sync option")).

(** ** Reading the logs *)

(** The data events of the n-th stream, as pushed to [out]. *)
Definition stream_data (S3 : S3Client) (n : nat) : list OutEvent :=
  map Push (chunks (read_stream S3 n)).

(** The two events that close [out] after the last failure. *)
Definition terminal_error (st : Store) (fileKey : value) : list OutEvent :=
  [EmitError (Error (download_message (st_folder st +:+ to_string fileKey)
                       (st_bucket st)));
   PushNull].

Definition is_error (e : OutEvent) : bool :=
  match e with EmitError _ => true | _ => false end.

(** How many ['error'] events the consumer saw. *)
Definition error_count (o : list OutEvent) : nat :=
  length (List.filter is_error o).

(** The buffers the consumer received, in order. *)
Definition pushed (o : list OutEvent) : list Buffer :=
  flat_map (fun e => match e with Push d => [d] | _ => [] end) o.

(** All the bytes the consumer received. *)
Definition delivered (o : list OutEvent) : Buffer := concat (pushed o).

(** All the bytes of one backend stream. *)
Definition payload (a : attempt) : Buffer := concat (chunks a).

(** ** Sample stores and clients, used to run the model *)

Definition sample_store (folder : string) : Store :=
  {| st_name := "files";
     st_options := {| Options.folder := VStr folder;
                      Options.bucket := VStr "my-bucket";
                      Options.ACL := VUndefined;
                      Options.fileKey := None |};
     st_folder := normalize_folder (VStr folder);
     st_bucket := VStr "my-bucket";
     st_defaultAcl := VStr "private" |}.

Definition reset : AWSError :=
  {| code := "ECONNRESET"; message := "socket hang up" |}.

Definition no_such_key : AWSError :=
  {| code := "NoSuchKey"; message := "The specified key does not exist." |}.

(** A client whose read streams behave as listed, and fail at once when the
    list is used up; deleting reports [del]. *)
Definition client (streams : list attempt) (del : option AWSError) : S3Client :=
  {| read_stream := fun n => nth n streams {| chunks := []; result := Fail reset |};
     delete_object := fun _ _ => del |}.

Definition bytes (s : string) : Buffer := list_byte_of_string s.

(** The key recorded on a file record for a store, if any: the [key]
    property of its per-store info. *)
Definition recorded_key (f : FSFile) (store : string) : option value :=
  match _getInfo f store with
  | Some info => info !! "key"
  | None => None
  end.

(** A file record of collection "docs" with id "abc", known to the store
    "files" only. *)
Definition sample_file (info : option (gmap string value))
    (generic in_store : value) : FSFile :=
  {| _id := VStr "abc";
     collectionName := VStr "docs";
     _getInfo := fun store => if String.eqb store "files" then info else None;
     name := fun o => match o with Some _ => in_store | None => generic end |}.

(** The sample store with a key function configured. *)
Definition keyed_store (g : FSFile -> KeyContext -> value) : Store :=
  {| st_name := "files";
     st_options := {| Options.folder := VUndefined;
                      Options.bucket := VStr "my-bucket";
                      Options.ACL := VUndefined;
                      Options.fileKey := Some g |};
     st_folder := "";
     st_bucket := VStr "my-bucket";
     st_defaultAcl := VStr "private" |}.

(** A key function that files everything under the name of the store. *)
Definition by_store (f : FSFile) (ctx : KeyContext) : value :=
  VStr (ctx_name ctx +:+ "/" +:+ to_string (_id f)).

(** Whether a key prefix begins with a slash. *)
Definition starts_with_slash (s : string) : bool :=
  match s with
  | String c _ => Ascii.eqb c "/"
  | EmptyString => false
  end.

(** The key of the only call in a log of S3 calls, if it has one. *)
Definition call_key (c : S3Call) : option value :=
  match c with
  | CreateReadStream _ k | DeleteObject _ k => Some (VStr k)
  | CreateWriteStream params => params !! "Key"
  end.

(** Lines 24-45: the parameters a put-object request accepts. The list is
    declared next to the adapter, which never consults it. *)
Definition validS3PutParamKeys : list string :=
  [ "ACL"; "Body"; "Bucket"; "CacheControl"; "ContentDisposition";
    "ContentEncoding"; "ContentLanguage"; "ContentLength"; "ContentMD5";
    "ContentType"; "Expires"; "GrantFullControl"; "GrantRead"; "GrantReadACP";
    "GrantWriteACP"; "Key"; "Metadata"; "ServerSideEncryption"; "StorageClass";
    "WebsiteRedirectLocation" ].

(** The bucket a call on S3 names. *)
Definition call_bucket (c : S3Call) : option value :=
  match c with
  | CreateReadStream b _ | DeleteObject b _ => Some b
  | CreateWriteStream params => params !! "Bucket"
  end.

(** Whether a string ends with a slash, as line 79 tests it. *)
Definition ends_with_slash (s : string) : bool :=
  String.eqb (slice s (-1) None) "/".

(** The chunks of the first [n] streams of a client, in order. *)
Definition chunks_upto (S3 : S3Client) (n : nat) : list Buffer :=
  flat_map (fun k => chunks (read_stream S3 k)) (seq 0 n).

(** [createReadStream] comes to the final state [s]: every amount of fuel
    above the number of tries gives it. *)
Definition runs_to (S3 : S3Client) (st : Store) (fileKey : value)
    (options : option ReadOptions) (s : ReadState) : Prop :=
  forall fuel, (Z.to_nat (fst (read_defaults options)) < fuel)%nat ->
    createReadStream S3 st fileKey options fuel = Some s.

(** * Properties *)

(** ** The read path *)

Section ReadPath.

Variable S3 : S3Client.
Variable st : Store.
Variable fileKey : value.
Variable tryFreq : Z.

Let key : string := st_folder st +:+ to_string fileKey.
Let open_call : S3Call := CreateReadStream (st_bucket st) key.
Let stream_data := stream_data S3.
Let terminal_error := terminal_error st fileKey.

Lemma fold_on_data (cs : list Buffer) (s : ReadState) :
  fold_left on_data cs s =
  {| triesLeft := triesLeft s; out := out s ++ map Push cs;
     s3_calls := s3_calls s; timers := timers s; console := console s |}.
Proof.
  revert s. induction cs as [|c cs IH]; intros s; simpl.
  - destruct s; simpl. by rewrite app_nil_r.
  - rewrite IH. simpl. by rewrite <- app_assoc.
Qed.

(** One run of [startStream] whose stream ends normally. *)
Lemma startStream_finish (fuel : nat) (s : ReadState) :
  result (read_stream S3 (length (s3_calls s))) = Finish ->
  startStream S3 st fileKey tryFreq (S fuel) s =
  Some {| triesLeft := triesLeft s;
          out := out s ++ stream_data (length (s3_calls s)) ++ [PushNull];
          s3_calls := s3_calls s ++ [open_call];
          timers := timers s; console := console s |}.
Proof.
  intros Hr. simpl. rewrite Hr, fold_on_data. unfold on_end; simpl.
  by rewrite <- app_assoc.
Qed.

(** One run whose stream fails while tries are left: a timer is set and
    [startStream] runs again. *)
Lemma startStream_retry (fuel : nat) (s : ReadState) (err : AWSError) :
  result (read_stream S3 (length (s3_calls s))) = Fail err ->
  0 < triesLeft s ->
  startStream S3 st fileKey tryFreq (S fuel) s =
  startStream S3 st fileKey tryFreq fuel
    {| triesLeft := triesLeft s - 1;
       out := out s ++ stream_data (length (s3_calls s));
       s3_calls := s3_calls s ++ [open_call];
       timers := timers s ++ [tryFreq]; console := console s |}.
Proof.
  intros Hr Hpos. simpl. rewrite Hr, fold_on_data. unfold on_error; simpl.
  destruct (Z.leb_spec (triesLeft s) 0) as [Hle|_]; [lia|]. reflexivity.
Qed.

(** One run whose stream fails when no tries are left. *)
Lemma startStream_give_up (fuel : nat) (s : ReadState) (err : AWSError) :
  result (read_stream S3 (length (s3_calls s))) = Fail err ->
  triesLeft s <= 0 ->
  startStream S3 st fileKey tryFreq (S fuel) s =
  Some {| triesLeft := triesLeft s;
          out := out s ++ stream_data (length (s3_calls s)) ++ terminal_error;
          s3_calls := s3_calls s ++ [open_call];
          timers := timers s;
          console := console s ++ [download_message key (st_bucket st)] |}.
Proof.
  intros Hr Hle. simpl. rewrite Hr, fold_on_data. unfold on_error; simpl.
  destruct (Z.leb_spec (triesLeft s) 0) as [_|Hlt]; [|lia].
  by rewrite <- app_assoc.
Qed.

(** Every stream fails: with [n] tries left, [n + 1] streams are opened,
    [n] timers are set, and [out] is closed by the terminal error. *)
Lemma startStream_all_fail (n : nat) :
  forall (s : ReadState) (fuel : nat),
    triesLeft s = Z.of_nat n ->
    (forall k, (length (s3_calls s) <= k)%nat ->
               exists err, result (read_stream S3 k) = Fail err) ->
    (n < fuel)%nat ->
    startStream S3 st fileKey tryFreq fuel s =
    Some {| triesLeft := 0;
            out := out s
                   ++ flat_map stream_data (seq (length (s3_calls s)) (S n))
                   ++ terminal_error;
            s3_calls := s3_calls s ++ repeat open_call (S n);
            timers := timers s ++ repeat tryFreq n;
            console := console s ++ [download_message key (st_bucket st)] |}.
Proof.
  induction n as [|n IH]; intros s fuel Htries Hfail Hfuel.
  - destruct fuel as [|fuel]; [lia|].
    destruct (Hfail (length (s3_calls s))) as [err Herr]; [lia|].
    rewrite (startStream_give_up _ _ err) by (done || lia).
    rewrite Htries. simpl. by rewrite !app_nil_r.
  - destruct fuel as [|fuel]; [lia|].
    destruct (Hfail (length (s3_calls s))) as [err Herr]; [lia|].
    rewrite (startStream_retry _ _ err) by (done || lia).
    rewrite IH; simpl.
    + rewrite length_app. simpl. rewrite Nat.add_1_r.
      f_equal. f_equal; rewrite <- ?app_assoc; done.
    + lia.
    + intros k Hk. apply Hfail. rewrite length_app in Hk. simpl in Hk. lia.
    + lia.
Qed.

(** [startStream] always comes to an end: the counter bounds the number
    of runs. *)
Lemma startStream_total (s : ReadState) :
  exists s', forall fuel,
    (Z.to_nat (triesLeft s) < fuel)%nat ->
    startStream S3 st fileKey tryFreq fuel s = Some s'.
Proof.
  remember (Z.to_nat (triesLeft s)) as n eqn:Hn.
  revert s Hn. induction n as [|n IH]; intros s Hn.
  - destruct (result (read_stream S3 (length (s3_calls s)))) as [|err] eqn:Hr.
    + eexists. intros [|fuel] Hf; [lia|]. by apply startStream_finish.
    + eexists. intros [|fuel] Hf; [lia|].
      apply (startStream_give_up _ _ err); [done|lia].
  - destruct (result (read_stream S3 (length (s3_calls s)))) as [|err] eqn:Hr.
    + eexists. intros [|fuel] Hf; [lia|]. by apply startStream_finish.
    + edestruct (IH {| triesLeft := triesLeft s - 1;
                       out := out s ++ stream_data (length (s3_calls s));
                       s3_calls := s3_calls s ++ [open_call];
                       timers := timers s ++ [tryFreq];
                       console := console s |}) as [s' Hs']; [simpl; lia|].
      exists s'. intros [|fuel] Hf; [lia|].
      rewrite (startStream_retry _ _ err) by (done || lia).
      apply Hs'. simpl. lia.
Qed.

(** However the streams behave, [out] is closed in one of two ways: by
    the terminal error, or by the whole data of a stream that ended
    normally; before that come the data of the streams that failed. *)
Lemma startStream_closes (fuel : nat) :
  forall (s s' : ReadState),
    startStream S3 st fileKey tryFreq fuel s = Some s' ->
    exists pre : list OutEvent,
      out s' = (out s ++ pre ++ terminal_error)%list \/
      exists n, result (read_stream S3 n) = Finish /\
                out s' = (out s ++ pre ++ stream_data n ++ [PushNull])%list.
Proof.
  induction fuel as [|fuel IH]; intros s s' Hrun; [done|].
  destruct (result (read_stream S3 (length (s3_calls s)))) as [|err] eqn:Hr.
  - rewrite startStream_finish in Hrun by done. injection Hrun as <-.
    exists []. right. exists (length (s3_calls s)). by split.
  - destruct (Z_lt_le_dec 0 (triesLeft s)) as [Hpos|Hle].
    + rewrite (startStream_retry _ _ err) in Hrun by done.
      apply IH in Hrun as [pre Hpre]. simpl in Hpre.
      exists (stream_data (length (s3_calls s)) ++ pre).
      destruct Hpre as [Hpre|[n [Hn Hpre]]]; [left|right; exists n; split; [done|]];
        rewrite Hpre, <- !app_assoc; done.
    + rewrite (startStream_give_up _ _ err) in Hrun by done.
      injection Hrun as <-. exists (stream_data (length (s3_calls s))).
      left. done.
Qed.

End ReadPath.

(** Counting errors and collecting data distribute over the log. *)
Lemma error_count_app (o1 o2 : list OutEvent) :
  error_count (o1 ++ o2) = (error_count o1 + error_count o2)%nat.
Proof. unfold error_count. by rewrite List.filter_app, length_app. Qed.

Lemma error_count_push (cs : list Buffer) : error_count (map Push cs) = 0%nat.
Proof. induction cs as [|c cs IH]; [done|]. exact IH. Qed.

Lemma error_count_streams (S3 : S3Client) (ks : list nat) :
  error_count (flat_map (stream_data S3) ks) = 0%nat.
Proof.
  induction ks as [|k ks IH]; [done|]. simpl.
  rewrite error_count_app, IH. unfold stream_data. by rewrite error_count_push.
Qed.

Lemma pushed_app (o1 o2 : list OutEvent) :
  pushed (o1 ++ o2) = pushed o1 ++ pushed o2.
Proof. unfold pushed. apply flat_map_app. Qed.

Lemma pushed_push (cs : list Buffer) : pushed (map Push cs) = cs.
Proof. induction cs as [|c cs IH]; [done|]. simpl. by f_equal. Qed.

Lemma pushed_streams (S3 : S3Client) (ks : list nat) :
  pushed (flat_map (stream_data S3) ks) =
  flat_map (fun k => chunks (read_stream S3 k)) ks.
Proof.
  induction ks as [|k ks IH]; [done|]. simpl.
  rewrite pushed_app, IH. unfold stream_data. by rewrite pushed_push.
Qed.

(** C1 (as the code behaves): when every backend stream fails and [tries]
    is N (N >= 0), [createReadStream] comes to an end after opening N + 1
    backend streams, not N: the first failure finds the counter still at N.
    The consumer sees exactly one error, after the data of the failed
    streams, which is no data at all when they fail before sending any. *)
Theorem createReadStream_all_fail_opens_tries_plus_one
    (S3 : S3Client) (st : Store) (fileKey : value) (N : Z) (freq : option Z) :
  0 <= N ->
  (forall k, exists err, result (read_stream S3 k) = Fail err) ->
  exists s,
    (forall fuel, (Z.to_nat N < fuel)%nat ->
       createReadStream S3 st fileKey
         (Some {| tries := Some N; tryFreq := freq |}) fuel = Some s) /\
    s3_calls s =
      repeat (CreateReadStream (st_bucket st) (st_folder st +:+ to_string fileKey))
             (S (Z.to_nat N)) /\
    length (timers s) = Z.to_nat N /\
    error_count (out s) = 1%nat /\
    out s = flat_map (stream_data S3) (seq 0 (S (Z.to_nat N)))
            ++ terminal_error st fileKey /\
    ((forall k, chunks (read_stream S3 k) = []) -> pushed (out s) = []).
Proof.
  intros HN Hfail. eexists. split; [|split; [|split; [|split; [|split]]]].
  - intros fuel Hfuel. unfold createReadStream, read_defaults; simpl.
    apply (startStream_all_fail S3 st fileKey _ (Z.to_nat N)); simpl; auto; lia.
  - reflexivity.
  - simpl. by rewrite repeat_length.
  - cbn [out]. rewrite app_nil_l, error_count_app, error_count_streams. done.
  - reflexivity.
  - intros Hnone. cbn [out]. rewrite app_nil_l, pushed_app, pushed_streams.
    change (pushed (terminal_error st fileKey)) with (@nil Buffer).
    rewrite app_nil_r.
    match goal with |- flat_map _ ?l = _ => induction l as [|k ks IH] end;
      [done|].
    cbn [flat_map]. by rewrite Hnone.
Qed.

Lemma createReadStream_all_fail_opens_tries_plus_one_witness :
  exists s,
    (forall fuel, (Z.to_nat 1 < fuel)%nat ->
       createReadStream (client [] None) (sample_store "") (VStr "a.txt")
         (Some {| tries := Some 1; tryFreq := None |}) fuel = Some s) /\
    s3_calls s =
      repeat (CreateReadStream (st_bucket (sample_store ""))
                (st_folder (sample_store "") +:+ to_string (VStr "a.txt")))
             (S (Z.to_nat 1)) /\
    length (timers s) = Z.to_nat 1 /\
    error_count (out s) = 1%nat /\
    out s = flat_map (stream_data (client [] None)) (seq 0 (S (Z.to_nat 1)))
            ++ terminal_error (sample_store "") (VStr "a.txt") /\
    ((forall k, chunks (read_stream (client [] None) k) = []) -> pushed (out s) = []).
Proof.
  apply (createReadStream_all_fail_opens_tries_plus_one
           (client [] None) (sample_store "") (VStr "a.txt") 1 None).
  - lia.
  - intros k. exists reset. simpl. by destruct k.
Defined.

(** With [tries = 3] and a backend that always fails at once, four streams
    are opened before the error reaches the consumer. *)
Example createReadStream_all_fail_tries_3 :
  option_map (fun s => (length (s3_calls s), out s, timers s))
    (createReadStream (client [] None) (sample_store "") (VStr "a.txt")
       (Some {| tries := Some 3; tryFreq := None |}) 10) =
  Some (4%nat,
        [EmitError (Error "Failed to download file a.txt from S3 bucket my-bucket");
         PushNull],
        [1000; 1000; 1000]).
Proof. reflexivity. Qed.

(** C2: when the first two backend streams fail and the third ends
    normally, with [tries] at 3 (given, or by default), the consumer
    receives the whole data of the third stream, then end-of-stream, and no
    error; the data is preceded only by what the failed streams had sent,
    which is nothing when they failed on opening. *)
Theorem createReadStream_third_stream_succeeds
    (S3 : S3Client) (st : Store) (fileKey : value)
    (options : option ReadOptions) (e0 e1 : AWSError) :
  fst (read_defaults options) = 3 ->
  result (read_stream S3 0) = Fail e0 ->
  result (read_stream S3 1) = Fail e1 ->
  result (read_stream S3 2) = Finish ->
  exists s,
    (forall fuel, (3 <= fuel)%nat ->
       createReadStream S3 st fileKey options fuel = Some s) /\
    out s = stream_data S3 0 ++ stream_data S3 1 ++ stream_data S3 2 ++ [PushNull] /\
    error_count (out s) = 0%nat /\
    length (s3_calls s) = 3%nat /\
    (chunks (read_stream S3 0) = [] -> chunks (read_stream S3 1) = [] ->
     out s = map Push (chunks (read_stream S3 2)) ++ [PushNull] /\
     delivered (out s) = payload (read_stream S3 2)).
Proof.
  intros Htries H0 H1 H2.
  destruct (read_defaults options) as [n freq] eqn:Hdef. simpl in Htries. subst n.
  eexists. split; [|split; [|split; [|split]]].
  - intros [|[|[|fuel]]] Hfuel; try lia.
    unfold createReadStream. rewrite Hdef.
    rewrite (startStream_retry _ _ _ _ _ _ e0) by (done || (simpl; lia)).
    rewrite (startStream_retry _ _ _ _ _ _ e1) by (done || (simpl; lia)).
    rewrite startStream_finish by done.
    reflexivity.
  - simpl. by rewrite <- !app_assoc.
  - cbn [out]. rewrite !error_count_app. unfold stream_data.
    by rewrite !error_count_push.
  - reflexivity.
  - intros Hc0 Hc1. simpl. unfold stream_data. rewrite Hc0, Hc1. simpl.
    split; [done|]. unfold delivered, payload.
    by rewrite pushed_app, pushed_push, app_nil_r.
Qed.

Lemma createReadStream_third_stream_succeeds_witness :
  let S3 := client [ {| chunks := []; result := Fail reset |};
                     {| chunks := []; result := Fail reset |};
                     {| chunks := [bytes "hello "; bytes "world"];
                        result := Finish |} ] None in
  exists s,
    (forall fuel, (3 <= fuel)%nat ->
       createReadStream S3 (sample_store "") (VStr "a.txt") None fuel = Some s) /\
    out s = stream_data S3 0 ++ stream_data S3 1 ++ stream_data S3 2 ++ [PushNull] /\
    error_count (out s) = 0%nat /\
    length (s3_calls s) = 3%nat /\
    (chunks (read_stream S3 0) = [] -> chunks (read_stream S3 1) = [] ->
     out s = map Push (chunks (read_stream S3 2)) ++ [PushNull] /\
     delivered (out s) = payload (read_stream S3 2)).
Proof.
  intros S3.
  apply (createReadStream_third_stream_succeeds S3 (sample_store "")
           (VStr "a.txt") None reset reset); reflexivity.
Defined.

(** C3 (a run of the code that breaks it): the first backend stream sends
    the two bytes "ab" and then fails, the second sends the whole object
    "abcd" and ends. No timer is left, [out] is closed without any error,
    and the consumer has received "ababcd": these are not the bytes of the
    object, nor of any stream the backend completed. *)
Theorem createReadStream_retry_after_partial_data :
  let S3 := client [ {| chunks := [bytes "ab"]; result := Fail reset |};
                     {| chunks := [bytes "abcd"]; result := Finish |} ] None in
  exists s,
    (forall fuel, (2 <= fuel)%nat ->
       createReadStream S3 (sample_store "") (VStr "a.txt") None fuel = Some s) /\
    out s = [Push (bytes "ab"); Push (bytes "abcd"); PushNull] /\
    error_count (out s) = 0%nat /\
    delivered (out s) = bytes "ababcd" /\
    forall n, result (read_stream S3 n) = Finish ->
              delivered (out s) <> payload (read_stream S3 n).
Proof.
  intros S3. eexists. split; [|split; [|split; [|split]]].
  - intros [|[|fuel]] Hfuel; try lia. reflexivity.
  - reflexivity.
  - reflexivity.
  - reflexivity.
  - intros [|[|[|n]]] Hn; simpl in Hn; try discriminate Hn. by vm_compute.
Qed.

(** Whatever the backend does, [createReadStream] comes to an end, and
    [out] is then closed either by the terminal error or by the whole data
    of a stream that ended normally. *)
Lemma createReadStream_closes (S3 : S3Client) (st : Store) (fileKey : value)
    (options : option ReadOptions) :
  exists s,
    (forall fuel, (Z.to_nat (fst (read_defaults options)) < fuel)%nat ->
       createReadStream S3 st fileKey options fuel = Some s) /\
    exists pre,
      out s = pre ++ terminal_error st fileKey \/
      exists n, result (read_stream S3 n) = Finish /\
                out s = pre ++ stream_data S3 n ++ [PushNull].
Proof.
  unfold createReadStream. destruct (read_defaults options) as [n freq]. simpl.
  destruct (startStream_total S3 st fileKey freq
              {| triesLeft := n; out := []; s3_calls := []; timers := [];
                 console := [] |}) as [s Hs].
  exists s. split; [exact Hs|].
  apply (startStream_closes S3 st fileKey freq (S (Z.to_nat n))
           {| triesLeft := n; out := []; s3_calls := []; timers := [];
              console := [] |} s).
  apply Hs. simpl. lia.
Qed.

(** ** The key resolver *)

Section FileKey.

Variable st : Store.
Variable f : FSFile.

(** The guard of line 117 in terms of the recorded key. *)
Lemma fileKey_recorded (k : value) :
  recorded_key f (st_name st) = Some k ->
  truthy k = true ->
  fileKey st (Some f) = Normal k.
Proof.
  unfold recorded_key, fileKey. intros Hk Ht.
  destruct (_getInfo f (st_name st)) as [info|]; [|done].
  unfold prop. rewrite Hk. simpl. by rewrite Ht.
Qed.

Lemma fileKey_not_recorded :
  (forall k, recorded_key f (st_name st) = Some k -> truthy k = false) ->
  fileKey st (Some f) =
  match Options.fileKey (st_options st) with
  | Some g => Normal (g f {| ctx_name := st_name st;
                             ctx_info := _getInfo f (st_name st) |})
  | None =>
      Normal (VStr (to_string (collectionName f) +:+ "/"
                    +:+ to_string (_id f) +:+ "-"
                    +:+ to_string (JS.or (name f (Some (st_name st)))
                                         (name f None))))
  end.
Proof.
  unfold recorded_key, fileKey. intros Hk.
  destruct (_getInfo f (st_name st)) as [info|]; [|done].
  unfold prop. destruct (info !! "key") as [k|] eqn:Hik; simpl.
  - by rewrite (Hk k).
  - done.
Qed.

End FileKey.

(** C4 (as stated, refuted): a record whose recorded key is the empty
    string has a recorded key, yet the resolver does not return it: the
    guard of line 117 tests the key for truthiness, and the resolver goes on
    to build a key. *)
Lemma fileKey_recorded_empty_key_not_returned :
  let f := sample_file (Some {[ "key" := VStr "" ]}) (VStr "a.txt") VUndefined in
  recorded_key f (st_name (sample_store "")) = Some (VStr "") /\
  fileKey (sample_store "") (Some f) = Normal (VStr "docs/abc-a.txt") /\
  fileKey (sample_store "") (Some f) <> Normal (VStr "").
Proof. vm_compute. repeat split; congruence. Qed.

(** C4 (amended): for every file record whose recorded key for the store is
    truthy (for a string: not empty), the resolver returns exactly that key;
    so does every store of the same name, whatever its options, key
    function included. *)
Theorem fileKey_returns_recorded_key (st : Store) (f : FSFile) (k : value) :
  recorded_key f (st_name st) = Some k ->
  truthy k = true ->
  fileKey st (Some f) = Normal k /\
  forall st', st_name st' = st_name st -> fileKey st' (Some f) = Normal k.
Proof.
  intros Hk Ht. split; [by apply fileKey_recorded|].
  intros st' Hname. apply fileKey_recorded; [by rewrite Hname|done].
Qed.

Lemma fileKey_returns_recorded_key_witness :
  let f := sample_file (Some {[ "key" := VStr "docs/abc-old.txt" ]})
             (VStr "a.txt") VUndefined in
  fileKey (sample_store "") (Some f) = Normal (VStr "docs/abc-old.txt") /\
  forall st', st_name st' = st_name (sample_store "") ->
              fileKey st' (Some f) = Normal (VStr "docs/abc-old.txt").
Proof.
  intros f.
  apply (fileKey_returns_recorded_key (sample_store "") f (VStr "docs/abc-old.txt"));
    reflexivity.
Defined.

(** C5 (as stated, refuted): the record has no recorded key and the store no
    key function; its name in the store exists and is the empty string, its
    generic name is "a.txt". The resolver takes the generic name, because
    [filenameInStore || filename] skips a falsy name, and not the name in
    the store. *)
Lemma fileKey_empty_store_name_skipped :
  let f := sample_file None (VStr "a.txt") (VStr "") in
  recorded_key f (st_name (sample_store "")) = None /\
  Options.fileKey (st_options (sample_store "")) = None /\
  name f (Some (st_name (sample_store ""))) = VStr "" /\
  fileKey (sample_store "") (Some f) = Normal (VStr "docs/abc-a.txt") /\
  fileKey (sample_store "") (Some f) <>
    Normal (VStr (to_string (collectionName f) +:+ "/" +:+ to_string (_id f)
                  +:+ "-" +:+ to_string (name f (Some (st_name (sample_store "")))))).
Proof. vm_compute. repeat split; congruence. Qed.

(** C5 (amended): for every file record with no truthy recorded key for the
    store, and no key function configured, the resolver returns
    collectionName + "/" + _id + "-" + filename, where filename is the name
    in the store when that is truthy (for a string: not empty), else the
    generic name. *)
Theorem fileKey_generated (st : Store) (f : FSFile) :
  (forall k, recorded_key f (st_name st) = Some k -> truthy k = false) ->
  Options.fileKey (st_options st) = None ->
  fileKey st (Some f) =
  Normal (VStr (to_string (collectionName f) +:+ "/" +:+ to_string (_id f) +:+ "-"
                +:+ (if truthy (name f (Some (st_name st)))
                     then to_string (name f (Some (st_name st)))
                     else to_string (name f None)))).
Proof.
  intros Hk Hnone. rewrite fileKey_not_recorded by done. rewrite Hnone.
  unfold JS.or. by destruct (truthy (name f (Some (st_name st)))).
Qed.

Lemma fileKey_generated_witness :
  fileKey (sample_store "") (Some (sample_file None (VStr "a.txt") (VStr "thumb.png"))) =
  Normal (VStr "docs/abc-thumb.png").
Proof.
  apply (fileKey_generated (sample_store "")
           (sample_file None (VStr "a.txt") (VStr "thumb.png"))).
  - intros k Hk. discriminate Hk.
  - reflexivity.
Defined.

(** C6: for every file record with no (truthy) recorded key for the store,
    when a key function is configured, the resolver calls it with the file
    record and the context [{name: name, info: info}], [info] being what
    [_getInfo(name)] gave, and returns its result as it is. *)
Theorem fileKey_override (st : Store) (f : FSFile)
    (g : FSFile -> KeyContext -> value) :
  (forall k, recorded_key f (st_name st) = Some k -> truthy k = false) ->
  Options.fileKey (st_options st) = Some g ->
  fileKey st (Some f) =
  Normal (g f {| ctx_name := st_name st; ctx_info := _getInfo f (st_name st) |}).
Proof.
  intros Hk Hg. rewrite fileKey_not_recorded by done. by rewrite Hg.
Qed.

Lemma fileKey_override_witness :
  fileKey (keyed_store by_store)
    (Some (sample_file (Some ∅) (VStr "a.txt") VUndefined)) =
  Normal (VStr "files/abc").
Proof.
  apply (fileKey_override (keyed_store by_store)
           (sample_file (Some ∅) (VStr "a.txt") VUndefined) by_store).
  - intros k Hk. discriminate Hk.
  - reflexivity.
Defined.

(** The result of the key function is not checked: a function that returns
    [null] makes [null] the key. *)
Example key_function_result_unchecked :
  fileKey (keyed_store (fun _ _ => VNull))
    (Some (sample_file None (VStr "a.txt") VUndefined)) = Normal VNull.
Proof. reflexivity. Qed.

(** Without a file record the resolver throws. *)
Example fileKey_no_record (st : Store) : fileKey st None = Throw TypeError.
Proof. reflexivity. Qed.

(** ** The write path *)

Section WritePath.

Variable st : Store.
Variable fileKey : value.
Variable options : gmap string value.

Let params := write_params st fileKey (Some options).

(** Properties that the in-place edits do not touch go through them. *)
Lemma rename_and_strip_other (p : string) :
  p ≠ "ContentType" -> p ≠ "contentType" -> p ≠ "aliases" -> p ≠ "metadata" ->
  rename_and_strip options !! p = options !! p.
Proof.
  intros H1 H2 H3 H4. unfold rename_and_strip.
  rewrite !lookup_delete_ne by done.
  destruct (truthy (prop options "contentType")); [|done].
  by rewrite lookup_insert_ne.
Qed.

Lemma rename_and_strip_removed (p : string) :
  p = "contentType" \/ p = "aliases" \/ p = "metadata" ->
  rename_and_strip options !! p = None.
Proof.
  unfold rename_and_strip. intros [H|[H|H]]; subst p.
  - rewrite lookup_delete_ne by done. by rewrite lookup_delete_eq.
  - rewrite !lookup_delete_ne by done. by rewrite lookup_delete_eq.
  - by rewrite lookup_delete_eq.
Qed.

Lemma rename_and_strip_ContentType :
  rename_and_strip options !! "ContentType" =
  if truthy (prop options "contentType")
  then options !! "contentType"
  else options !! "ContentType".
Proof.
  unfold rename_and_strip. rewrite !lookup_delete_ne by done.
  unfold prop. destruct (options !! "contentType") as [ct|] eqn:Hct; simpl.
  - destruct (truthy ct); [by rewrite lookup_insert_eq|done].
  - done.
Qed.

(** A default is used exactly when the caller gave no such property. *)
Lemma write_params_lookup (p : string) :
  params !! p =
  match rename_and_strip options !! p with
  | Some v => Some v
  | None =>
      (<["Bucket" := st_bucket st]>
       (<["Key" := VStr (st_folder st +:+ to_string fileKey)]>
       (<["fileKey" := fileKey]>
       (<["ACL" := st_defaultAcl st]> (∅ : gmap string value))))) !! p
  end.
Proof.
  unfold params, write_params, extend. simpl.
  rewrite lookup_union.
  destruct (rename_and_strip options !! p) as [v|];
    match goal with |- _ ∪ ?d = _ => destruct d end; reflexivity.
Qed.

End WritePath.

(** C7 (as stated, refuted): the caller supplies [contentType: ""]. The
    guard of line 178 tests the value for truthiness, so it is not copied,
    and the put-object parameters have no [ContentType] at all. *)
Lemma createWriteStream_falsy_contentType_dropped :
  let options : gmap string value := {[ "contentType" := VStr "" ]} in
  options !! "contentType" = Some (VStr "") /\
  exists params,
    createWriteStream (sample_store "") (VStr "a.txt") (Some options) =
      [CreateWriteStream params] /\
    params !! "ContentType" = None /\
    params !! "ContentType" <> Some (VStr "").
Proof.
  intros options. split; [reflexivity|]. eexists. split; [reflexivity|].
  assert (write_params (sample_store "") (VStr "a.txt") (Some options)
            !! "ContentType" = None) as H by (by vm_compute).
  rewrite H. split; [done|discriminate].
Qed.

(** C7 (amended): for every options object, [createWriteStream] asks S3 for
    one put-object stream whose parameters have, as [ContentType], the
    caller's [contentType] when that is truthy (and the caller's own
    [ContentType], if any, otherwise); have no [contentType], [aliases] or
    [metadata]; and have as [Bucket], [Key] and [ACL] the caller's value when
    the caller gave one, else the configured bucket, prefix + key and the
    default ACL. *)
Theorem createWriteStream_params (st : Store) (fileKey : value)
    (options : option (gmap string value)) :
  exists params,
    createWriteStream st fileKey options = [CreateWriteStream params] /\
    params !! "ContentType" =
      (if truthy (prop (default ∅ options) "contentType")
       then default ∅ options !! "contentType"
       else default ∅ options !! "ContentType") /\
    params !! "contentType" = None /\
    params !! "aliases" = None /\
    params !! "metadata" = None /\
    params !! "Bucket" = Some (default (st_bucket st) (default ∅ options !! "Bucket")) /\
    params !! "Key" =
      Some (default (VStr (st_folder st +:+ to_string fileKey))
              (default ∅ options !! "Key")) /\
    params !! "ACL" = Some (default (st_defaultAcl st) (default ∅ options !! "ACL")).
Proof.
  eexists. split; [reflexivity|].
  change (write_params st fileKey options)
    with (write_params st fileKey (Some (default ∅ options))).
  set (o := default ∅ options).
  repeat split; rewrite write_params_lookup.
  - rewrite rename_and_strip_ContentType.
    destruct (truthy (prop o "contentType")) eqn:Ht.
    + unfold prop in Ht. by destruct (o !! "contentType").
    + by destruct (o !! "ContentType").
  - rewrite rename_and_strip_removed by auto. done.
  - rewrite rename_and_strip_removed by auto. done.
  - rewrite rename_and_strip_removed by auto. done.
  - rewrite rename_and_strip_other by done. by destruct (o !! "Bucket").
  - rewrite rename_and_strip_other by done. by destruct (o !! "Key").
  - rewrite rename_and_strip_other by done. by destruct (o !! "ACL").
Qed.

(** The run of the specification's example: [{contentType: "text/plain"}]
    together with an [aliases] array and a [metadata] object. *)
Example createWriteStream_text_plain :
  createWriteStream (sample_store "/uploads") (VStr "a.txt")
    (Some (<["contentType" := VStr "text/plain"]>
           (<["aliases" := VArr [VStr "b.txt"]]>
           (<["metadata" := VObj [("owner", VStr "me")]]> ∅)))) =
  [CreateWriteStream
     (<["ContentType" := VStr "text/plain"]>
      (<["Bucket" := VStr "my-bucket"]>
      (<["Key" := VStr "uploads/a.txt"]>
      (<["fileKey" := VStr "a.txt"]>
      (<["ACL" := VStr "private"]> ∅)))))].
Proof. by vm_compute. Qed.

(** ** [remove] and [watch] *)

(** C8: for every key, [remove] makes exactly one call on S3, a
    [deleteObject] of prefix + key in the bucket, and calls back exactly
    once with the error S3 reported, unchanged, and with a success flag that
    is true if and only if there was no error. *)
Theorem remove_once (S3 : S3Client) (st : Store) (fileKey : value) :
  let Key := st_folder st +:+ to_string fileKey in
  let error := delete_object S3 (st_bucket st) Key in
  rm_calls (remove S3 st fileKey) = [DeleteObject (st_bucket st) Key] /\
  exists success,
    rm_callback (remove S3 st fileKey) = [(error, success)] /\
    (success = true <-> error = None) /\
    (forall err, error = Some err ->
       rm_callback (remove S3 st fileKey) = [(Some err, false)]).
Proof.
  intros Key error. split; [reflexivity|].
  exists (not_error error). split; [reflexivity|]. split.
  - unfold not_error. destruct error; split; congruence.
  - intros err Herr. unfold remove. fold Key. fold error. by rewrite Herr.
Qed.

(** A key that S3 reports as missing. *)
Example remove_not_found :
  remove (client [] (Some no_such_key)) (sample_store "uploads") (VStr "a.txt") =
  {| rm_calls := [DeleteObject (VStr "my-bucket") "uploads/a.txt"];
     rm_callback := [(Some no_such_key, false)] |}.
Proof. reflexivity. Qed.

(** C9: for every store and whatever the arguments, [watch] throws the
    not-supported error and has asked nothing of S3. *)
Theorem watch_not_supported (st : Store) (args : list value) :
  watch st args =
  ([], Throw (Error "S3 storage adapter does not support the sync option")).
Proof. reflexivity. Qed.

(** ** The constructor and the key prefix *)

(** The sample stores are what the constructor builds. *)
Lemma sample_store_built (folder : string) :
  FS_Store_S3 true "files" (Some (st_options (sample_store folder))) =
  Normal (sample_store folder).
Proof. reflexivity. Qed.

Lemma keyed_store_built (g : FSFile -> KeyContext -> value) :
  FS_Store_S3 true "files" (Some (st_options (keyed_store g))) =
  Normal (keyed_store g).
Proof. reflexivity. Qed.

(** Without a bucket there is no store. *)
Example FS_Store_S3_no_bucket :
  FS_Store_S3 true "files" None =
  Throw (Error ("FS.Store.S3 you must specify the " +:+ dquote +:+ "bucket"
                +:+ dquote +:+ " option")).
Proof. reflexivity. Qed.

Section Slices.

Lemma substring_0_0 (s : string) : substring 0 0 s = "".
Proof. by destruct s. Qed.

Lemma substring_whole (s : string) : substring 0 (String.length s) s = s.
Proof. induction s as [|c s IH]; [done|]. simpl. by rewrite IH. Qed.

Lemma length_append (p q : string) :
  String.length (p +:+ q) = (String.length p + String.length q)%nat.
Proof. induction p as [|c p IH]; [done|]. simpl. by rewrite IH. Qed.

Lemma substring_last (p : string) (c : ascii) :
  substring (String.length p) 1 (p +:+ String c "") = String c "".
Proof. induction p as [|d p IH]; [done|]. exact IH. Qed.

(** Every string is empty or has a last character. *)
Lemma string_snoc (s : string) :
  s = "" \/ exists p c, s = p +:+ String c "".
Proof.
  induction s as [|d s IH]; [by left|]. right.
  destruct IH as [->|[p [c ->]]].
  - by exists "", d.
  - by exists (String d p), c.
Qed.

Lemma clamp_index (len i : Z) : 0 <= i -> clamp len i = Z.min i len.
Proof. unfold clamp. intros H. by destruct (Z.ltb_spec i 0); [lia|]. Qed.

Lemma clamp_from_end (len i : Z) : i < 0 -> clamp len i = Z.max (len + i) 0.
Proof. unfold clamp. intros H. by destruct (Z.ltb_spec i 0); [|lia]. Qed.

(** [s.slice(0, 1)] is the first character. *)
Lemma slice_first (c : ascii) (s : string) :
  slice (String c s) 0 (Some 1) = String c "".
Proof.
  unfold slice. rewrite !clamp_index by lia. cbn [String.length].
  replace (Z.min 0 (Z.of_nat (S (String.length s)))) with 0 by lia.
  replace (Z.min 1 (Z.of_nat (S (String.length s)))) with 1 by lia.
  simpl. by rewrite substring_0_0.
Qed.

(** [s.slice(1)] drops the first character. *)
Lemma slice_rest (c : ascii) (s : string) :
  slice (String c s) 1 None = s.
Proof.
  unfold slice. rewrite clamp_index by lia. cbn [String.length].
  replace (Z.min 1 (Z.of_nat (S (String.length s)))) with 1 by lia.
  replace (Z.to_nat (Z.max (Z.of_nat (S (String.length s)) - 1) 0))
    with (String.length s) by lia.
  simpl. apply substring_whole.
Qed.

(** [s.slice(-1)] is the last character, or empty. *)
Lemma slice_last_empty : slice "" (-1) None = "".
Proof. reflexivity. Qed.

Lemma slice_last (p : string) (c : ascii) :
  slice (p +:+ String c "") (-1) None = String c "".
Proof.
  unfold slice. rewrite clamp_from_end by lia.
  rewrite length_append. cbn [String.length].
  replace (Z.max (Z.of_nat (String.length p + 1) + -1) 0)
    with (Z.of_nat (String.length p)) by lia.
  replace (Z.to_nat (Z.max (Z.of_nat (String.length p + 1)
                            - Z.of_nat (String.length p)) 0))
    with 1%nat by lia.
  rewrite Nat2Z.id. apply substring_last.
Qed.

End Slices.

(** The constructor keeps the normalised folder as the prefix. *)
Lemma FS_Store_S3_folder (with_new : bool) (name : string)
    (options : option Options.t) (st : Store) :
  FS_Store_S3 with_new name options = Normal st ->
  st_folder st = normalize_folder (Options.folder (default Options.empty options)).
Proof.
  unfold FS_Store_S3. destruct with_new; [|done]. simpl.
  destruct (truthy (Options.bucket (default Options.empty options))); [|done].
  simpl. by intros [= <-].
Qed.

(** The prefix is empty when the folder option is absent or not a string,
    and when it is the empty string. *)
Lemma normalize_folder_not_string (v : value) :
  is_string v = false -> normalize_folder v = "".
Proof. by destruct v. Qed.

Lemma normalize_folder_empty_string : normalize_folder (VStr "") = "".
Proof. reflexivity. Qed.

(** The second step of the normalisation yields a string that ends with a
    slash. *)
Lemma trailing_slash_added (s : string) :
  exists p,
    (if negb (String.eqb (slice s (-1) None) "/") then s +:+ "/" else s) = p +:+ "/".
Proof.
  destruct (string_snoc s) as [->|[p [c ->]]].
  - by exists "".
  - rewrite slice_last. destruct (String.eqb_spec (String c "") "/") as [Heq|Hne]; simpl.
    + exists p. by rewrite Heq.
    + by eexists.
Qed.

(** A prefix that is not empty ends with a slash. *)
Lemma normalize_folder_trailing_slash (v : value) :
  normalize_folder v = "" \/ exists p, normalize_folder v = p +:+ "/".
Proof.
  destruct v as [| | | |s| |]; try by left.
  destruct s as [|c s]; [by left|]. right.
  unfold normalize_folder. cbn [String.length Nat.eqb negb].
  apply trailing_slash_added.
Qed.

(** The prefix begins with a slash exactly when the folder is "/" or begins
    with two slashes: only one leading slash is removed, and a trailing one
    is added to what is left even when nothing is left. *)
Lemma normalize_folder_leading_slash (s : string) :
  starts_with_slash (normalize_folder (VStr s)) = true <->
  s = "/" \/ exists t, s = "//" +:+ t.
Proof.
  destruct s as [|c t].
  - simpl. split; [done|]. by intros [H|[t H]].
  - unfold normalize_folder. cbn [String.length Nat.eqb negb].
    rewrite slice_first.
    destruct (Ascii.eqb_spec c "/") as [->|Hne].
    + change (String.eqb "/" "/") with true. cbn iota. rewrite slice_rest.
      destruct t as [|d t].
      * simpl. split; [by left|done].
      * assert (forall b : bool,
                  starts_with_slash (if b then String d t +:+ "/" else String d t)
                  = Ascii.eqb d "/") as -> by (by intros []).
        destruct (Ascii.eqb_spec d "/") as [->|Hd]; split; try done.
        -- intros _. right. by exists t.
        -- intros [H|[t' H]]; [done|].
           change ("//" +:+ t') with (String "/" (String "/" t')) in H. congruence.
    + assert (String.eqb (String c "") "/" = false) as ->.
      { apply String.eqb_neq. congruence. }
      assert (forall b : bool,
                starts_with_slash (if b then String c t +:+ "/" else String c t)
                = Ascii.eqb c "/") as -> by (by intros []).
      destruct (Ascii.eqb_spec c "/") as [->|_]; [done|].
      split; [done|]. intros [H|[t' H]]; [congruence|].
      change ("//" +:+ t') with (String "/" (String "/" t')) in H. congruence.
Qed.

(** C10 (a run of the code that breaks it): with the folder option "/" the
    constructor removes the slash and then, finding that what is left does
    not end with one, adds it back. The prefix is "/", and the keys that
    [createReadStream], [createWriteStream] and [remove] hand to S3 for the
    file key "a.txt" all begin with a slash. *)
Theorem folder_slash_gives_prefix_slash :
  exists st,
    FS_Store_S3 true "files"
      (Some {| Options.folder := VStr "/"; Options.bucket := VStr "my-bucket";
               Options.ACL := VUndefined; Options.fileKey := None |}) = Normal st /\
    st_folder st = "/" /\
    starts_with_slash (st_folder st) = true /\
    option_map s3_calls
      (createReadStream (client [ {| chunks := []; result := Finish |} ] None)
         st (VStr "a.txt") None 1) =
      Some [CreateReadStream (VStr "my-bucket") "/a.txt"] /\
    map call_key (createWriteStream st (VStr "a.txt") None) = [Some (VStr "/a.txt")] /\
    rm_calls (remove (client [] None) st (VStr "a.txt")) =
      [DeleteObject (VStr "my-bucket") "/a.txt"].
Proof. eexists. split; [reflexivity|]. by vm_compute. Qed.

(** The same happens with any folder that begins with two slashes. *)
Example normalize_folder_double_slash :
  normalize_folder (VStr "//uploads") = "/uploads/".
Proof. reflexivity. Qed.

Example normalize_folder_uploads :
  normalize_folder (VStr "/uploads") = "uploads/" /\
  normalize_folder (VStr "uploads/") = "uploads/" /\
  normalize_folder (VNum 7) = "" /\
  normalize_folder VUndefined = "".
Proof. by vm_compute. Qed.


(** * Further properties of the adapter *)

(** ** The shape of every run of the read path *)

Section ReadRuns.

Variable S3 : S3Client.
Variable st : Store.
Variable fileKey : value.
Variable tryFreq : Z.

Let key : string := st_folder st +:+ to_string fileKey.
Let open_call : S3Call := CreateReadStream (st_bucket st) key.
Let stream_data := stream_data S3.
Let terminal_error := terminal_error st fileKey.
Let msg : string := download_message key (st_bucket st).

(** A run that sets [m] timers opens [m + 1] streams; the first [m] fail
    while tries are left, and the last one either ends normally or fails
    with no tries left. *)
Lemma startStream_run (fuel : nat) :
  forall (s s' : ReadState),
    startStream S3 st fileKey tryFreq fuel s = Some s' ->
    exists m : nat,
      s3_calls s' = s3_calls s ++ repeat open_call (S m) /\
      timers s' = timers s ++ repeat tryFreq m /\
      triesLeft s' = triesLeft s - Z.of_nat m /\
      (m = 0%nat \/ Z.of_nat m <= triesLeft s) /\
      (forall j, (j < m)%nat ->
         exists e, result (read_stream S3 (length (s3_calls s) + j)) = Fail e) /\
      ((result (read_stream S3 (length (s3_calls s) + m)) = Finish /\
        out s' = out s ++ flat_map stream_data (seq (length (s3_calls s)) (S m))
                 ++ [PushNull] /\
        console s' = console s)
       \/
       ((exists e, result (read_stream S3 (length (s3_calls s) + m)) = Fail e) /\
        triesLeft s' <= 0 /\
        out s' = out s ++ flat_map stream_data (seq (length (s3_calls s)) (S m))
                 ++ terminal_error /\
        console s' = console s ++ [msg])).
Proof.
  induction fuel as [|fuel IH]; intros s s' Hrun; [done|].
  destruct (result (read_stream S3 (length (s3_calls s)))) as [|err] eqn:Hr.
  - rewrite startStream_finish in Hrun by done. injection Hrun as <-.
    exists 0%nat. cbn [s3_calls timers triesLeft out console repeat].
    rewrite Nat.add_0_r, app_nil_r.
    split; [done|]. split; [done|]. split; [lia|]. split; [by left|].
    split; [intros j Hj; lia|]. left. cbn [seq flat_map].
    by rewrite app_nil_r.
  - destruct (Z_lt_le_dec 0 (triesLeft s)) as [Hpos|Hle].
    + rewrite (startStream_retry _ _ _ _ _ _ err) in Hrun by done.
      apply IH in Hrun as (m & Hc & Ht & Hn & Hm & Hf & Hlast).
      cbn [s3_calls timers triesLeft out console] in *.
      rewrite length_app in Hf, Hlast. cbn [length] in Hf, Hlast.
      exists (S m).
      replace (length (s3_calls s) + S m)%nat
        with (length (s3_calls s) + 1 + m)%nat by lia.
      split; [by rewrite Hc, <- app_assoc|].
      split; [by rewrite Ht, <- app_assoc|].
      split; [lia|]. split; [right; lia|].
      split.
      { intros [|j] Hj.
        - rewrite Nat.add_0_r. by exists err.
        - replace (length (s3_calls s) + S j)%nat
            with (length (s3_calls s) + 1 + j)%nat by lia.
          apply Hf. lia. }
      assert (forall tl,
                (out s ++ stream_data (length (s3_calls s)))
                ++ flat_map stream_data (seq (length (s3_calls s) + 1) (S m)) ++ tl
                = out s ++ flat_map stream_data (seq (length (s3_calls s)) (S (S m)))
                  ++ tl) as Hout.
      { intros tl. rewrite Nat.add_1_r.
        change (seq (length (s3_calls s)) (S (S m)))
          with (length (s3_calls s) :: seq (S (length (s3_calls s))) (S m)).
        cbn [flat_map]. by rewrite <- !app_assoc. }
      destruct Hlast as [(Hfin & Ho & Hcon)|(Hfail & Hz & Ho & Hcon)].
      * left. by rewrite Ho, Hout.
      * right. split; [done|]. split; [lia|]. by rewrite Ho, Hout.
    + rewrite (startStream_give_up _ _ _ _ _ _ err) in Hrun by done.
      injection Hrun as <-.
      exists 0%nat. cbn [s3_calls timers triesLeft out console repeat].
      rewrite Nat.add_0_r, app_nil_r.
      split; [done|]. split; [done|]. split; [lia|]. split; [by left|].
      split; [intros j Hj; lia|]. right. cbn [seq flat_map].
      rewrite app_nil_r. split; [by exists err|]. split; [lia|done].
Qed.

End ReadRuns.

Lemma stream_data_chunks (S3 : S3Client) (ks : list nat) :
  flat_map (stream_data S3) ks =
  map Push (flat_map (fun k => chunks (read_stream S3 k)) ks).
Proof.
  induction ks as [|k ks IH]; [done|]. cbn [flat_map].
  by rewrite map_app, IH.
Qed.

(** The run lemma, for a whole call. *)
Lemma createReadStream_run (S3 : S3Client) (st : Store) (fileKey : value)
    (options : option ReadOptions) :
  exists (s : ReadState) (m : nat),
    runs_to S3 st fileKey options s /\
    s3_calls s =
      repeat (CreateReadStream (st_bucket st) (st_folder st +:+ to_string fileKey))
        (S m) /\
    timers s = repeat (snd (read_defaults options)) m /\
    triesLeft s = fst (read_defaults options) - Z.of_nat m /\
    (m = 0%nat \/ Z.of_nat m <= fst (read_defaults options)) /\
    (forall j, (j < m)%nat -> exists e, result (read_stream S3 j) = Fail e) /\
    ((result (read_stream S3 m) = Finish /\
      out s = map Push (chunks_upto S3 (S m)) ++ [PushNull] /\
      console s = [])
     \/
     ((exists e, result (read_stream S3 m) = Fail e) /\
      triesLeft s <= 0 /\
      out s = map Push (chunks_upto S3 (S m)) ++ terminal_error st fileKey /\
      console s = [download_message (st_folder st +:+ to_string fileKey)
                     (st_bucket st)])).
Proof.
  unfold runs_to, createReadStream, chunks_upto.
  destruct (read_defaults options) as [n freq]. cbn [fst snd].
  set (s0 := {| triesLeft := n; out := []; s3_calls := []; timers := [];
                console := [] |}).
  destruct (startStream_total S3 st fileKey freq s0) as [s Hs].
  exists s.
  destruct (startStream_run S3 st fileKey freq (S (Z.to_nat n)) s0 s)
    as (m & Hc & Ht & Hn & Hm & Hf & Hlast).
  { apply Hs. simpl. lia. }
  exists m. cbn [s0 s3_calls timers triesLeft out console length Nat.add app] in *.
  rewrite !stream_data_chunks in Hlast.
  repeat (split; [done|]). done.
Qed.

(** How the logs read. *)
Lemma error_count_closed (data : list Buffer) :
  error_count (map Push data ++ [PushNull]) = 0%nat.
Proof. by rewrite error_count_app, error_count_push. Qed.

Lemma error_count_failed (data : list Buffer) (st : Store) (fileKey : value) :
  error_count (map Push data ++ terminal_error st fileKey) = 1%nat.
Proof. by rewrite error_count_app, error_count_push. Qed.

Lemma repeat_Forall {A : Type} (x : A) (n : nat) : Forall (eq x) (repeat x n).
Proof. induction n as [|n IH]; constructor; done. Qed.

(** X1: the read path stops at the first backend stream that ends normally.
    If streams 0 .. k-1 fail and stream k ends, and k is 0 or at most
    [tries], then k + 1 streams are opened, k timers are set, and the
    consumer receives the data of all k + 1 streams followed by
    end-of-stream, with no error and nothing written to the console. *)
Theorem createReadStream_stops_at_first_success
    (S3 : S3Client) (st : Store) (fileKey : value)
    (options : option ReadOptions) (k : nat) :
  (forall j, (j < k)%nat -> exists e, result (read_stream S3 j) = Fail e) ->
  result (read_stream S3 k) = Finish ->
  (k = 0%nat \/ Z.of_nat k <= fst (read_defaults options)) ->
  exists s,
    runs_to S3 st fileKey options s /\
    length (s3_calls s) = S k /\
    length (timers s) = k /\
    out s = map Push (chunks_upto S3 (S k)) ++ [PushNull] /\
    error_count (out s) = 0%nat /\
    console s = [].
Proof.
  intros Hfail Hfin Hk.
  destruct (createReadStream_run S3 st fileKey options)
    as (s & m & Hrun & Hc & Ht & Hn & Hm & Hf & Hlast).
  exists s. split; [done|].
  assert (m = k) as ->.
  { destruct (Nat.lt_trichotomy m k) as [Hlt|[Heq|Hgt]]; [|done|].
    - destruct (Hfail m Hlt) as [e He].
      destruct Hlast as [(Hfin' & _)|(_ & Hz & _)]; [congruence|].
      destruct Hk as [->|Hk]; lia.
    - destruct (Hf k Hgt) as [e He]. congruence. }
  destruct Hlast as [(_ & Ho & Hcon)|([e He] & _)]; [|congruence].
  rewrite Hc, Ht, !repeat_length, Ho, error_count_closed. done.
Qed.

Lemma createReadStream_stops_at_first_success_witness :
  let S3 := client [ {| chunks := [bytes "ab"]; result := Fail reset |};
                     {| chunks := [bytes "abcd"]; result := Finish |} ] None in
  exists s,
    runs_to S3 (sample_store "") (VStr "a.txt") None s /\
    length (s3_calls s) = 2%nat /\
    length (timers s) = 1%nat /\
    out s = map Push (chunks_upto S3 2) ++ [PushNull] /\
    error_count (out s) = 0%nat /\
    console s = [].
Proof.
  intros S3.
  apply (createReadStream_stops_at_first_success S3 (sample_store "")
           (VStr "a.txt") None 1).
  - intros [|j] Hj; [by exists reset|lia].
  - reflexivity.
  - right. simpl. lia.
Defined.

(** X2: with [tries] at 0 or below, nothing is retried: when the first
    stream fails, it is the only one opened, no timer is set, and the
    consumer gets what that stream had sent, then the error and
    end-of-stream. *)
Theorem createReadStream_without_tries
    (S3 : S3Client) (st : Store) (fileKey : value)
    (options : option ReadOptions) (e : AWSError) :
  fst (read_defaults options) <= 0 ->
  result (read_stream S3 0) = Fail e ->
  exists s,
    runs_to S3 st fileKey options s /\
    s3_calls s =
      [CreateReadStream (st_bucket st) (st_folder st +:+ to_string fileKey)] /\
    timers s = [] /\
    out s = map Push (chunks (read_stream S3 0)) ++ terminal_error st fileKey /\
    error_count (out s) = 1%nat.
Proof.
  intros Hle He.
  destruct (createReadStream_run S3 st fileKey options)
    as (s & m & Hrun & Hc & Ht & Hn & Hm & Hf & Hlast).
  exists s. split; [done|].
  assert (m = 0%nat) as -> by lia.
  destruct Hlast as [(Hfin & _)|(_ & _ & Ho & _)]; [congruence|].
  rewrite Hc, Ht, Ho, error_count_failed. unfold chunks_upto. simpl.
  by rewrite app_nil_r.
Qed.

Lemma createReadStream_without_tries_witness :
  exists s,
    runs_to (client [] None) (sample_store "") (VStr "a.txt")
      (Some {| tries := Some 0; tryFreq := None |}) s /\
    s3_calls s = [CreateReadStream (VStr "my-bucket") "a.txt"] /\
    timers s = [] /\
    out s = map Push (chunks (read_stream (client [] None) 0))
            ++ terminal_error (sample_store "") (VStr "a.txt") /\
    error_count (out s) = 1%nat.
Proof.
  apply (createReadStream_without_tries (client [] None) (sample_store "")
           (VStr "a.txt") (Some {| tries := Some 0; tryFreq := None |}) reset).
  - simpl. lia.
  - reflexivity.
Defined.

(** X3: whatever the backend does, the read path ends; it opens at least
    one stream and at most max(tries, 0) + 1, sets one timer fewer than it
    opens streams, each with the delay [tryFreq], and the counter ends at
    [tries] minus the number of timers. *)
Theorem createReadStream_bounded
    (S3 : S3Client) (st : Store) (fileKey : value)
    (options : option ReadOptions) :
  exists s,
    runs_to S3 st fileKey options s /\
    (1 <= length (s3_calls s) <= S (Z.to_nat (fst (read_defaults options))))%nat /\
    S (length (timers s)) = length (s3_calls s) /\
    Forall (eq (snd (read_defaults options))) (timers s) /\
    triesLeft s = fst (read_defaults options) - Z.of_nat (length (timers s)).
Proof.
  destruct (createReadStream_run S3 st fileKey options)
    as (s & m & Hrun & Hc & Ht & Hn & Hm & Hf & Hlast).
  exists s. split; [done|].
  rewrite Hc, Ht, !repeat_length.
  split; [lia|]. split; [done|]. split; [apply repeat_Forall|done].
Qed.

(** X4: every request the read path makes is the same one: a read stream
    of prefix + key in the configured bucket. A retry never asks for a
    range or for another key. *)
Theorem createReadStream_same_request
    (S3 : S3Client) (st : Store) (fileKey : value)
    (options : option ReadOptions) :
  exists s,
    runs_to S3 st fileKey options s /\
    Forall (eq (CreateReadStream (st_bucket st)
                  (st_folder st +:+ to_string fileKey))) (s3_calls s).
Proof.
  destruct (createReadStream_run S3 st fileKey options)
    as (s & m & Hrun & Hc & _).
  exists s. split; [done|]. rewrite Hc. apply repeat_Forall.
Qed.

(** X5: what the consumer observes is always the data of every stream that
    was opened, in the order received and with nothing dropped, followed
    either by end-of-stream alone (and then nothing went to the console), or
    by one error and end-of-stream (and then the console has the same
    message once). Nothing is pushed after end-of-stream. *)
Theorem createReadStream_out_shape
    (S3 : S3Client) (st : Store) (fileKey : value)
    (options : option ReadOptions) :
  exists s,
    runs_to S3 st fileKey options s /\
    pushed (out s) = chunks_upto S3 (length (s3_calls s)) /\
    ((out s = map Push (pushed (out s)) ++ [PushNull] /\ console s = [])
     \/
     (out s = map Push (pushed (out s))
              ++ [EmitError (Error (download_message
                                      (st_folder st +:+ to_string fileKey)
                                      (st_bucket st)));
                  PushNull] /\
      console s = [download_message (st_folder st +:+ to_string fileKey)
                     (st_bucket st)])).
Proof.
  destruct (createReadStream_run S3 st fileKey options)
    as (s & m & Hrun & Hc & Ht & Hn & Hm & Hf & Hlast).
  exists s. split; [done|]. rewrite Hc, repeat_length.
  destruct Hlast as [(_ & Ho & Hcon)|(_ & _ & Ho & Hcon)].
  - assert (pushed (out s) = chunks_upto S3 (S m)) as Hp.
    { rewrite Ho, pushed_app, pushed_push. apply app_nil_r. }
    split; [done|]. left. by rewrite Hp.
  - assert (pushed (out s) = chunks_upto S3 (S m)) as Hp.
    { rewrite Ho, pushed_app, pushed_push. apply app_nil_r. }
    split; [done|]. right. by rewrite Hp.
Qed.

(** X6: the consumer gets an error exactly when the first max(tries, 0) + 1
    backend streams all fail; it never gets more than one. *)
Theorem createReadStream_error_iff
    (S3 : S3Client) (st : Store) (fileKey : value)
    (options : option ReadOptions) :
  exists s,
    runs_to S3 st fileKey options s /\
    (error_count (out s) <= 1)%nat /\
    (error_count (out s) = 1%nat <->
     forall j, (j <= Z.to_nat (fst (read_defaults options)))%nat ->
               exists e, result (read_stream S3 j) = Fail e).
Proof.
  destruct (createReadStream_run S3 st fileKey options)
    as (s & m & Hrun & Hc & Ht & Hn & Hm & Hf & Hlast).
  exists s. split; [done|].
  destruct Hlast as [(Hfin & Ho & _)|(Hfail & Hz & Ho & _)].
  - rewrite Ho, error_count_closed. split; [lia|]. split; [done|].
    intros Hall. destruct (Hall m) as [e He]; [lia|congruence].
  - rewrite Ho, error_count_failed. split; [lia|]. split; [|done].
    intros _ j Hj.
    destruct (Nat.eq_dec j m) as [->|Hne]; [done|]. apply Hf. lia.
Qed.

(** ** The constructor *)


(** X8: a store the constructor has built keeps the name and the options it
    was given, has a truthy bucket, and has a truthy default ACL: the ACL
    option when that is truthy, "private" otherwise. *)
Theorem FS_Store_S3_store (with_new : bool) (name : string)
    (options : option Options.t) (st : Store) :
  FS_Store_S3 with_new name options = Normal st ->
  st_name st = name /\
  st_options st = default Options.empty options /\
  st_bucket st = Options.bucket (st_options st) /\
  truthy (st_bucket st) = true /\
  truthy (st_defaultAcl st) = true /\
  st_defaultAcl st =
    (if truthy (Options.ACL (st_options st))
     then Options.ACL (st_options st) else VStr "private").
Proof.
  unfold FS_Store_S3. destruct with_new; [|done]. cbn [negb].
  destruct (truthy (Options.bucket (default Options.empty options))) eqn:Hb;
    [|done].
  cbn [negb]. intros [= <-]. cbn [st_name st_options st_bucket st_defaultAcl].
  repeat split; try done. unfold JS.or.
  by destruct (truthy (Options.ACL (default Options.empty options))) eqn:Ha.
Qed.

Lemma FS_Store_S3_store_witness :
  st_name (sample_store "/uploads") = "files" /\
  st_options (sample_store "/uploads") =
    default Options.empty (Some (st_options (sample_store "/uploads"))) /\
  st_bucket (sample_store "/uploads") =
    Options.bucket (st_options (sample_store "/uploads")) /\
  truthy (st_bucket (sample_store "/uploads")) = true /\
  truthy (st_defaultAcl (sample_store "/uploads")) = true /\
  st_defaultAcl (sample_store "/uploads") =
    (if truthy (Options.ACL (st_options (sample_store "/uploads")))
     then Options.ACL (st_options (sample_store "/uploads")) else VStr "private").
Proof.
  apply (FS_Store_S3_store true "files"
           (Some (st_options (sample_store "/uploads")))
           (sample_store "/uploads")).
  reflexivity.
Defined.

(** The normalisation of a non-empty folder, in two steps. *)
Lemma normalize_folder_steps (c : ascii) (t : string) :
  normalize_folder (VStr (String c t)) =
  let s1 := if Ascii.eqb c "/" then t else String c t in
  if ends_with_slash s1 then s1 else s1 +:+ "/".
Proof.
  unfold normalize_folder, ends_with_slash. cbn [String.length Nat.eqb negb].
  rewrite slice_first. cbn [String.eqb].
  destruct (Ascii.eqb c "/"); cbn [String.eqb].
  - rewrite slice_rest. by destruct (String.eqb (slice t (-1) None) "/").
  - by destruct (String.eqb (slice (String c t) (-1) None) "/").
Qed.

Lemma ends_with_slash_added (s : string) : ends_with_slash (s +:+ "/") = true.
Proof. unfold ends_with_slash. by rewrite slice_last. Qed.

Lemma append_slash_not_empty (p : string) : p +:+ "/" <> "".
Proof. by destruct p. Qed.

(** X9: the key prefix of a store is empty exactly when the folder option
    is absent, not a string, or the empty string; in every other case it
    ends with a slash. *)
Theorem FS_Store_S3_prefix_empty_or_slash (with_new : bool) (name : string)
    (options : option Options.t) (st : Store) :
  FS_Store_S3 with_new name options = Normal st ->
  (st_folder st = "" <->
   forall s, Options.folder (default Options.empty options) = VStr s -> s = "") /\
  (st_folder st = "" \/ exists p, st_folder st = p +:+ "/").
Proof.
  intros Hst. rewrite (FS_Store_S3_folder _ _ _ _ Hst).
  split; [|apply normalize_folder_trailing_slash].
  destruct (Options.folder (default Options.empty options)) as [| | | |s| |];
    try (split; [by intros _ s' [=]|done]).
  destruct s as [|c t].
  - split; [by intros _ s' [= <-]|done].
  - split.
    + intros Hempty.
      destruct (normalize_folder_trailing_slash (VStr (String c t)))
        as [H|[p H]].
      * unfold normalize_folder in H. cbn [String.length Nat.eqb negb] in H.
        destruct (trailing_slash_added
                    (if String.eqb (slice (String c t) 0 (Some 1)) "/"
                     then slice (String c t) 1 None else String c t)) as [p Hp].
        rewrite Hp in H. by apply append_slash_not_empty in H.
      * rewrite H in Hempty. by apply append_slash_not_empty in Hempty.
    + intros Hs. by specialize (Hs _ eq_refl).
Qed.

Lemma FS_Store_S3_prefix_empty_or_slash_witness :
  (st_folder (sample_store "/uploads") = "" <->
   forall s, Options.folder
               (default Options.empty (Some (st_options (sample_store "/uploads"))))
             = VStr s -> s = "") /\
  (st_folder (sample_store "/uploads") = "" \/
   exists p, st_folder (sample_store "/uploads") = p +:+ "/").
Proof.
  apply (FS_Store_S3_prefix_empty_or_slash true "files"
           (Some (st_options (sample_store "/uploads")))
           (sample_store "/uploads")).
  reflexivity.
Defined.

(** X10: the key prefix of a store begins with a slash exactly when the
    folder option is the string "/" or a string that begins with "//". *)
Theorem FS_Store_S3_prefix_leading_slash (with_new : bool) (name : string)
    (options : option Options.t) (st : Store) :
  FS_Store_S3 with_new name options = Normal st ->
  (starts_with_slash (st_folder st) = true <->
   Options.folder (default Options.empty options) = VStr "/" \/
   exists t, Options.folder (default Options.empty options) = VStr ("//" +:+ t)).
Proof.
  intros Hst. rewrite (FS_Store_S3_folder _ _ _ _ Hst).
  destruct (Options.folder (default Options.empty options)) as [| | | |s| |];
    try (split; [done|by intros [H|[t H]]]).
  rewrite normalize_folder_leading_slash. split.
  - intros [->|[t ->]]; [by left|right; by exists t].
  - intros [[= ->]|[t [= ->]]]; [by left|right; by exists t].
Qed.

Lemma FS_Store_S3_prefix_leading_slash_witness :
  starts_with_slash (st_folder (sample_store "//uploads")) = true <->
  Options.folder
    (default Options.empty (Some (st_options (sample_store "//uploads"))))
  = VStr "/" \/
  exists t, Options.folder
              (default Options.empty (Some (st_options (sample_store "//uploads"))))
            = VStr ("//" +:+ t).
Proof.
  apply (FS_Store_S3_prefix_leading_slash true "files"
           (Some (st_options (sample_store "//uploads")))
           (sample_store "//uploads")).
  reflexivity.
Defined.

(** X11: a folder name that neither begins nor ends with a slash gives the
    same prefix, the name followed by one slash, whether it is written
    bare, with a leading slash, with a trailing slash, or with both. *)
Theorem normalize_folder_spellings (s : string) :
  s <> "" ->
  starts_with_slash s = false ->
  ends_with_slash s = false ->
  normalize_folder (VStr s) = s +:+ "/" /\
  normalize_folder (VStr ("/" +:+ s)) = s +:+ "/" /\
  normalize_folder (VStr (s +:+ "/")) = s +:+ "/" /\
  normalize_folder (VStr ("/" +:+ s +:+ "/")) = s +:+ "/".
Proof.
  intros Hne Hstart Hend. destruct s as [|c t]; [done|].
  cbn [starts_with_slash] in Hstart.
  change ("/" +:+ String c t) with (String "/" (String c t)).
  change ("/" +:+ String c t +:+ "/") with (String "/" (String c t +:+ "/")).
  change (String c t +:+ "/") with (String c (t +:+ "/")) at 3.
  rewrite !normalize_folder_steps. cbn zeta.
  rewrite Hstart. change (Ascii.eqb "/" "/") with true. cbn iota.
  change (String c (t +:+ "/")) with (String c t +:+ "/").
  by rewrite Hend, ends_with_slash_added.
Qed.

Lemma normalize_folder_spellings_witness :
  normalize_folder (VStr "uploads") = "uploads" +:+ "/" /\
  normalize_folder (VStr ("/" +:+ "uploads")) = "uploads" +:+ "/" /\
  normalize_folder (VStr ("uploads" +:+ "/")) = "uploads" +:+ "/" /\
  normalize_folder (VStr ("/" +:+ "uploads" +:+ "/")) = "uploads" +:+ "/".
Proof.
  apply (normalize_folder_spellings "uploads"); [discriminate|reflexivity..].
Defined.

(** ** The key resolver, further *)




(** ** The write path, further *)

Set Warnings "-clear-no-such-hyp".

Lemma rename_and_strip_dom (options : gmap string value) :
  dom (rename_and_strip options) =
  (dom options ∖ {[ "contentType"; "aliases"; "metadata" ]})
  ∪ (if truthy (prop options "contentType")
     then {[ "ContentType" ]} else ∅ : gset string).
Proof.
  unfold rename_and_strip. rewrite !dom_delete_L.
  destruct (truthy (prop options "contentType")).
  - rewrite dom_insert_L. set_solver.
  - set_solver.
Qed.

(** X14: the properties of the put-object parameters are exactly: Bucket,
    Key, fileKey and ACL; every property of the caller's options other than
    contentType, aliases and metadata; and ContentType when the caller's
    contentType is truthy. *)
Theorem put_params_domain (st : Store) (fileKey : value)
    (options : option (gmap string value)) :
  exists params,
    createWriteStream st fileKey options = [CreateWriteStream params] /\
    dom params =
    ({[ "Bucket"; "Key"; "fileKey"; "ACL" ]} : gset string)
    ∪ (dom (default ∅ options) ∖ {[ "contentType"; "aliases"; "metadata" ]})
    ∪ (if truthy (prop (default ∅ options) "contentType")
       then {[ "ContentType" ]} else ∅).
Proof.
  eexists. split; [reflexivity|].
  unfold write_params, extend.
  rewrite dom_union_L, rename_and_strip_dom, !dom_insert_L, dom_empty_L.
  destruct (truthy (prop (default ∅ options) "contentType")); set_solver.
Qed.

Set Warnings "clear-no-such-hyp".

(** X15: the parameters are not filtered against the list of valid
    put-object parameters: every other property the caller supplies is
    passed on to S3 as it is, and the parameters always carry a [fileKey]
    property, which is not in that list. *)
Theorem createWriteStream_not_whitelisted (st : Store) (fileKey : value)
    (options : option (gmap string value)) :
  exists params,
    createWriteStream st fileKey options = [CreateWriteStream params] /\
    (forall p v,
       default ∅ options !! p = Some v ->
       p ≠ "contentType" -> p ≠ "aliases" -> p ≠ "metadata" ->
       p ≠ "ContentType" ->
       params !! p = Some v) /\
    is_Some (params !! "fileKey") /\
    ~ In "fileKey" validS3PutParamKeys.
Proof.
  eexists. split; [reflexivity|].
  change (write_params st fileKey options)
    with (write_params st fileKey (Some (default ∅ options))).
  split; [|split].
  - intros p v Hp H1 H2 H3 H4.
    rewrite write_params_lookup, rename_and_strip_other by done. by rewrite Hp.
  - rewrite write_params_lookup, rename_and_strip_other by done.
    destruct (default ∅ options !! "fileKey"); by eexists.
  - unfold validS3PutParamKeys. cbn [In]. intros H.
    repeat (destruct H as [H|H]; [discriminate H|]). exact H.
Qed.

(** X16: [createWriteStream] edits the caller's options object in place;
    the edits are idempotent, so handing the edited object to a second call
    gives the same request as the first. *)
Theorem createWriteStream_options_reusable (st : Store) (fileKey : value)
    (options : gmap string value) :
  rename_and_strip (rename_and_strip options) = rename_and_strip options /\
  createWriteStream st fileKey (Some (rename_and_strip options)) =
  createWriteStream st fileKey (Some options).
Proof.
  assert (rename_and_strip (rename_and_strip options) = rename_and_strip options)
    as Hid.
  { unfold rename_and_strip at 1. unfold prop.
    rewrite (rename_and_strip_removed options "contentType") by auto.
    cbn [default truthy].
    rewrite (delete_id _ "aliases")
      by (apply rename_and_strip_removed; auto).
    rewrite (delete_id _ "contentType")
      by (apply rename_and_strip_removed; auto).
    apply delete_id. apply rename_and_strip_removed; auto. }
  split; [done|].
  unfold createWriteStream, write_params.
  change (default ∅ (Some (rename_and_strip options)))
    with (rename_and_strip options).
  by rewrite Hid.
Qed.

(** ** The three operations together *)

(** X17: unless the caller's write options name a Key or a Bucket of their
    own, reading, writing and removing a file key all address the same
    object: every call made on S3 names the configured bucket and the key
    prefix + file key. *)
Theorem operations_address_same_object
    (S3 : S3Client) (st : Store) (fileKey : value)
    (ropts : option ReadOptions) (wopts : option (gmap string value)) :
  default ∅ wopts !! "Key" = None ->
  default ∅ wopts !! "Bucket" = None ->
  exists s,
    runs_to S3 st fileKey ropts s /\
    Forall (fun c =>
              call_key c = Some (VStr (st_folder st +:+ to_string fileKey)) /\
              call_bucket c = Some (st_bucket st))
      (s3_calls s ++ createWriteStream st fileKey wopts
       ++ rm_calls (remove S3 st fileKey)).
Proof.
  intros HK HB.
  destruct (createReadStream_run S3 st fileKey ropts) as (s & m & Hrun & Hc & _).
  exists s. split; [done|]. rewrite Hc.
  apply Forall_app. split; [|apply Forall_app; split].
  - generalize (S m). intros n. induction n as [|n IH]; constructor; done.
  - constructor; [|constructor]. cbn [call_key call_bucket].
    change (write_params st fileKey wopts)
      with (write_params st fileKey (Some (default ∅ wopts))).
    rewrite !write_params_lookup, !rename_and_strip_other by done.
    by rewrite HK, HB.
  - constructor; [|constructor]. done.
Qed.

Lemma operations_address_same_object_witness :
  exists s,
    runs_to (client [] None) (sample_store "/uploads") (VStr "a.txt") None s /\
    Forall (fun c =>
              call_key c =
                Some (VStr (st_folder (sample_store "/uploads")
                            +:+ to_string (VStr "a.txt"))) /\
              call_bucket c = Some (st_bucket (sample_store "/uploads")))
      (s3_calls s
       ++ createWriteStream (sample_store "/uploads") (VStr "a.txt")
            (Some {[ "contentType" := VStr "text/plain" ]})
       ++ rm_calls (remove (client [] None) (sample_store "/uploads")
                      (VStr "a.txt"))).
Proof.
  apply (operations_address_same_object (client [] None)
           (sample_store "/uploads") (VStr "a.txt") None
           (Some {[ "contentType" := VStr "text/plain" ]})); reflexivity.
Defined.
